(** * The expression layer of CVXPY: [cvxpy/expressions/expression.py]

    [Expression] is an abstract base class.  Its abstract methods
    ([variables], [is_convex], [is_concave], [is_positive],
    [is_negative], [size]) are implemented by the concrete node
    classes; everything else (curvature and sign labels, [is_constant],
    [is_affine], [is_dcp], the arithmetic and comparison operators) is
    written once, in the base class, in terms of those methods and of
    the node constructors of [cvxpy.expressions.types].

    The development follows that structure: an interface (a type class)
    for the abstract methods and one for the constructors the operators
    call, the base-class methods defined over both, and then one
    concrete family of node variants implementing the interfaces. *)

From Stdlib Require Import Bool List String Ascii ZArith Arith Lia.
From Stdlib Require Import Decimal DecimalNat DecimalString.
Import ListNotations.
Open Scope string_scope.

Set Implicit Arguments.
Set Warnings "-register-all".


(** ** Exceptions and fallible results *)

(** [DCPError] is imported by the source from [cvxpy.error]; the node
    constructors may reject their operands' shapes. *)
Inductive exn : Type :=
| DCPError (msg : string)
| DimensionMismatch (op : string) (lh_size rh_size : nat * nat).

(** A Python call either returns a value or raises. *)
Inductive result (A : Type) : Type :=
| Ok (a : A)
| Raise (e : exn).

Arguments Ok {A} a.
Arguments Raise {A} e.

Definition bind {A B : Type} (c : result A) (k : A -> result B) : result B :=
  match c with
  | Ok a => k a
  | Raise e => Raise e
  end.

Definition fmap {A B : Type} (f : A -> B) (c : result A) : result B :=
  bind c (fun a => Ok (f a)).

Declare Scope result_scope.
Delimit Scope result_scope with result.
Notation "x <- c ;; k" := (bind c (fun x => k))
  (at level 61, c at next level, right associativity) : result_scope.
Open Scope result_scope.

(** ** The labels of [cvxpy.settings] *)

Module s.
(** Modelled from the spec: the module [cvxpy.settings] is not part of
    the sources at hand; the labels are the curvature values
    {CONSTANT, AFFINE, CONVEX, CONCAVE, UNKNOWN} and the sign values
    {ZERO, POSITIVE, NEGATIVE, UNKNOWN} of the data model, with one
    shared [UNKNOWN]. *)
Definition CONSTANT : string := "CONSTANT".
Definition AFFINE : string := "AFFINE".
Definition CONVEX : string := "CONVEX".
Definition CONCAVE : string := "CONCAVE".
Definition UNKNOWN : string := "UNKNOWN".
Definition ZERO : string := "ZERO".
Definition POSITIVE : string := "POSITIVE".
Definition NEGATIVE : string := "NEGATIVE".
End s.

(** ** The abstract interface *)

(** The abstract methods of [Expression] (and [variables], inherited
    from [u.Canonical]).  [E] is the type of expression objects, [X] the
    type of the variables they mention. *)
Class Expression (E X : Type) : Type := {
  variables : E -> list X;
  is_convex : E -> bool;
  is_concave : E -> bool;
  is_positive : E -> bool;
  is_negative : E -> bool;
  size : E -> nat * nat
}.

(** What the operators call outside the class: the node classes handed
    out by [cvxpy.expressions.types], the test
    [isinstance(self, types.constant())] with the attribute
    [is_1D_array] of constants, and the constraint classes of
    [cvxpy.constraints].  [V] is the type of raw (non-Expression)
    Python values, [C] the type of constraint objects. *)
Class Types (E V C : Type) : Type := {
  constant : V -> result E;
  add_expr : list E -> result E;
  mul_expr : E -> E -> result E;
  rmul_expr : E -> E -> result E;
  div_expr : E -> E -> result E;
  neg_expr : E -> result E;
  transpose : E -> result E;
  isinstance_constant : E -> bool;
  is_1D_array : E -> bool;
  EqConstraint : E -> E -> result C;
  LeqConstraint : E -> E -> result C;
  PSDConstraint : E -> E -> result C
}.

(** The second argument of a binary operator: an [Expression] or any
    other Python value. *)
Inductive operand (E V : Type) : Type :=
| IsExpr (e : E)
| Literal (v : V).

Arguments IsExpr {E V} e.
Arguments Literal {E V} v.

Section ExpressionClass.

Context {E X V C : Type} `{Expression E X} `{Types E V C}.

(** *** Sign properties *)

Definition is_zero (self : E) : bool :=
  is_positive self && is_negative self.

Definition sign (self : E) : string :=
  if is_zero self then s.ZERO
  else if is_positive self then s.POSITIVE
  else if is_negative self then s.NEGATIVE
  else s.UNKNOWN.

(** *** Curvature properties *)

Definition is_constant (self : E) : bool :=
  (List.length (variables self) =? 0)%nat || is_zero self.

Definition is_affine (self : E) : bool :=
  is_constant self || (is_convex self && is_concave self).

Definition curvature (self : E) : string :=
  if is_constant self then s.CONSTANT
  else if is_affine self then s.AFFINE
  else if is_convex self then s.CONVEX
  else if is_concave self then s.CONCAVE
  else s.UNKNOWN.

Definition is_dcp (self : E) : bool :=
  is_convex self || is_concave self.

(** *** Shape properties *)

Definition is_scalar (self : E) : bool :=
  let '(rows, cols) := size self in (rows =? 1)%nat && (cols =? 1)%nat.

(** *** Casting *)

Definition cast_to_const (expr : operand E V) : result E :=
  match expr with
  | IsExpr e => Ok e
  | Literal v => constant v
  end.

(** The decorator [_cast_other]. *)
Definition _cast_other {R : Type} (binary_op : E -> E -> result R)
  (self : E) (other : operand E V) : result R :=
  other <- cast_to_const other ;;
  binary_op self other.

(** *** Transpose *)

(** The property [T]. *)
Definition T (self : E) : result E :=
  if is_scalar self then Ok self else transpose self.

(** *** Arithmetic operators *)

Definition __neg__ (self : E) : result E := neg_expr self.

Definition __add__ : E -> operand E V -> result E :=
  _cast_other (fun self other => add_expr [self; other]).

Definition __radd__ : E -> operand E V -> result E :=
  _cast_other (fun self other => __add__ other (IsExpr self)).

Definition __sub__ : E -> operand E V -> result E :=
  _cast_other (fun self other =>
    negated <- __neg__ other ;;
    __add__ self (IsExpr negated)).

Definition __rsub__ : E -> operand E V -> result E :=
  _cast_other (fun self other => __sub__ other (IsExpr self)).

Definition __mul__ : E -> operand E V -> result E :=
  _cast_other (fun self other =>
    if negb (is_constant self) && negb (is_constant other) then
      Raise (DCPError "Cannot multiply two non-constants.")
    else if is_constant self then
      self <- (if (fst (size self) =? fst (size other))%nat
                  && negb (snd (size self) =? fst (size self))%nat
                  && isinstance_constant self && is_1D_array self
               then T self else Ok self) ;;
      mul_expr self other
    else if is_scalar self || is_scalar other then
      mul_expr other self
    else
      rmul_expr self other).

Definition __rmul__ : E -> operand E V -> result E :=
  _cast_other (fun self other => __mul__ other (IsExpr self)).

Definition __div__ : E -> operand E V -> result E :=
  _cast_other (fun self other =>
    if is_constant other && is_scalar other then
      div_expr self other
    else
      Raise (DCPError "Can only divide by a scalar constant.")).

Definition __truediv__ : E -> operand E V -> result E :=
  _cast_other (fun self other => __div__ self (IsExpr other)).

Definition __rdiv__ : E -> operand E V -> result E :=
  _cast_other (fun self other => __div__ other (IsExpr self)).

Definition __rtruediv__ : E -> operand E V -> result E :=
  _cast_other (fun self other => __div__ other (IsExpr self)).

(** *** Positive semidefinite ordering *)

Definition __rshift__ : E -> operand E V -> result C :=
  _cast_other (fun self other => PSDConstraint self other).

Definition __rrshift__ : E -> operand E V -> result C :=
  _cast_other (fun self other => PSDConstraint other self).

Definition __lshift__ : E -> operand E V -> result C :=
  _cast_other (fun self other => PSDConstraint other self).

Definition __rlshift__ : E -> operand E V -> result C :=
  _cast_other (fun self other => PSDConstraint self other).

(** *** Comparison operators *)

Definition __eq__ : E -> operand E V -> result C :=
  _cast_other (fun self other => EqConstraint self other).

Definition __le__ : E -> operand E V -> result C :=
  _cast_other (fun self other => LeqConstraint self other).

Definition __lt__ (self : E) (other : operand E V) : result C :=
  __le__ self other.

Definition __ge__ : E -> operand E V -> result C :=
  _cast_other (fun self other => __le__ other (IsExpr self)).

Definition __gt__ (self : E) (other : operand E V) : result C :=
  __ge__ self other.

(** *** The statements of the specification, in its own words *)

(** A value classified by a priority list of predicates: the label of
    the first predicate that holds wins, and [default] is the label
    when none holds. *)
Fixpoint first_that_holds (rules : list (bool * string)) (default : string)
  : string :=
  match rules with
  | [] => default
  | (holds, label) :: rest =>
      if holds then label else first_that_holds rest default
  end.

(** CONSTANT > AFFINE > CONVEX > CONCAVE > UNKNOWN. *)
Definition curvature_by_priority (n : E) : string :=
  first_that_holds
    [(is_constant n, s.CONSTANT); (is_affine n, s.AFFINE);
     (is_convex n, s.CONVEX); (is_concave n, s.CONCAVE)]
    s.UNKNOWN.

(** POSITIVE / NEGATIVE / UNKNOWN by single predicate. *)
Definition sign_by_single_predicate (n : E) : string :=
  first_that_holds
    [(is_positive n, s.POSITIVE); (is_negative n, s.NEGATIVE)]
    s.UNKNOWN.

(** add(a, negate(cast_to_const(b))), built constructor by
    constructor. *)
Definition add_of_negation (a : E) (b : operand E V) : result E :=
  b <- cast_to_const b ;;
  negated <- neg_expr b ;;
  add_expr [a; negated].

End ExpressionClass.

(** ** The remaining shape predicates of the class *)

Section ExpressionShape.

Context {E X : Type} `{Expression E X}.

Definition is_vector (self : E) : bool :=
  (Nat.min (fst (size self)) (snd (size self)) =? 1)%nat.

Definition is_matrix (self : E) : bool :=
  (1 <? fst (size self))%nat && (1 <? snd (size self))%nat.

End ExpressionShape.

(** ** Printing *)

(** [str] of a non-negative Python integer: its decimal digits. *)
Definition str_of_int (n : nat) : string :=
  NilZero.string_of_uint (Nat.to_uint n).

(** [str] of a pair of integers, as the format [%s] prints a tuple. *)
Definition str_of_size (sz : nat * nat) : string :=
  "(" ++ str_of_int (fst sz) ++ ", " ++ str_of_int (snd sz) ++ ")".

(** Reading a decimal numeral back, the inverse of [str_of_int]. *)
Definition int_of_str (digits : string) : option nat :=
  option_map Nat.of_uint (NilZero.uint_of_string digits).

(** The string has no occurrence of the character. *)
Fixpoint char_free (ch : ascii) (str : string) : bool :=
  match str with
  | EmptyString => true
  | String c rest => negb (Ascii.eqb c ch) && char_free ch rest
  end.

Section ExpressionPrinting.

Context {E X : Type} `{Expression E X}.

Definition __repr__ (self : E) : string :=
  "Expression(" ++ curvature self ++ ", " ++ sign self ++ ", "
  ++ str_of_size (size self) ++ ")".

End ExpressionPrinting.

(** ** One concrete family of nodes *)

Module Nodes.

(** Modelled from the spec: the value domain is an external
    collaborator (opaque numeric scalars and matrices with
    dimensions, with positivity tests).  Integer entries stand for the
    numbers: a scalar, a one-dimensional array, or a two-dimensional
    array given by its rows. *)
Inductive value : Type :=
| Scalar (x : Z)
| Array1D (xs : list Z)
| Array2D (rows : list (list Z)).

(** Modelled from the spec: dimensions inferred from the value's shape;
    a one-dimensional array of length [n] is a column, [(n, 1)]. *)
Definition value_shape (v : value) : nat * nat :=
  match v with
  | Scalar _ => (1, 1)
  | Array1D xs => (List.length xs, 1)
  | Array2D rows => (List.length rows, List.length (hd [] rows))
  end%nat.

Definition value_entries (v : value) : list Z :=
  match v with
  | Scalar x => [x]
  | Array1D xs => xs
  | Array2D rows => List.concat rows
  end.

(** Modelled from the spec: sign inferred from the value's sign. *)
Definition value_is_positive (v : value) : bool :=
  forallb (fun x => 0 <=? x)%Z (value_entries v).

Definition value_is_negative (v : value) : bool :=
  forallb (fun x => x <=? 0)%Z (value_entries v).

(** Modelled from the spec: the node classes live outside
    [expression.py]; this is the closed set of tagged variants of the
    data model that the operators of the class construct.  A
    [Constant] carries its raw value.  A [Leaf] stands for any variant
    whose classification is declared rather than derived from operands
    (a variable, or a function node): it carries its free variables,
    its dimensions and its declared convex, concave, positive and
    negative flags.  The other variants are the composites built by
    sum, negation, product (constant on the left or on the right),
    division and transpose. *)
Inductive node : Type :=
| Constant (v : value)
| Leaf (vars : list nat) (rows cols : nat) (cvx ccv pos neg : bool)
| AddExpression (args : list node)
| NegExpression (a : node)
| MulExpression (l r : node)
| RMulExpression (l r : node)
| DivExpression (l r : node)
| Transpose (a : node).

(** Modelled from the spec: a constraint references exactly two
    expression nodes, in an equality, an inequality or a positive
    semidefinite ordering. *)
Inductive constraint : Type :=
| Equality (lh_exp rh_exp : node)
| Inequality (lh_exp rh_exp : node)
| PSDOrdering (lh_exp rh_exp : node).

(** Modelled from the spec: the free variables of a node are those of
    its leaves; a constant has none. *)
Fixpoint node_variables (n : node) : list nat :=
  match n with
  | Constant _ => []
  | Leaf vars _ _ _ _ _ _ => vars
  | AddExpression args => flat_map node_variables args
  | NegExpression a | Transpose a => node_variables a
  | MulExpression l r | RMulExpression l r | DivExpression l r =>
      node_variables l ++ node_variables r
  end.

Definition shape_is_scalar (sh : nat * nat) : bool :=
  (fst sh =? 1)%nat && (snd sh =? 1)%nat.

Definition shape_eqb (a b : nat * nat) : bool :=
  (fst a =? fst b)%nat && (snd a =? snd b)%nat.

(** Shape of a sum: scalars broadcast to the shape of the others. *)
Definition sum_shape (shapes : list (nat * nat)) : nat * nat :=
  fold_left (fun acc sh => if shape_is_scalar acc then sh else acc)
            shapes (1, 1)%nat.

(** Shape of a product: a scalar factor scales the other operand,
    otherwise rows of the left by columns of the right. *)
Definition mul_shape (lh rh : nat * nat) : nat * nat :=
  if shape_is_scalar lh then rh
  else if shape_is_scalar rh then lh
  else (fst lh, snd rh).

(** Modelled from the spec: transpose swaps the shape; negation and
    division by a scalar keep the shape of their (left) operand. *)
Fixpoint node_size (n : node) : nat * nat :=
  match n with
  | Constant v => value_shape v
  | Leaf _ rows cols _ _ _ _ => (rows, cols)
  | AddExpression args => sum_shape (map node_size args)
  | NegExpression a => node_size a
  | MulExpression l r | RMulExpression l r =>
      mul_shape (node_size l) (node_size r)
  | DivExpression l r => node_size l
  | Transpose a => let '(rows, cols) := node_size a in (cols, rows)
  end.

(** Sign of a product (or quotient) from the signs of its factors, as
    pairs (is positive, is negative): zero times anything is zero,
    factors of equal sign give a positive product and factors of
    opposite signs a negative one. *)
Definition mul_sign (a b : bool * bool) : bool * bool :=
  let zero := (fst a && snd a) || (fst b && snd b) in
  (zero || (fst a && fst b) || (snd a && snd b),
   zero || (fst a && snd b) || (snd a && fst b)).

(** Modelled from the spec: the pair (is positive, is negative) of a
    node.  Negation flips the sign, transpose leaves it unchanged, the
    reciprocal of a constant keeps its sign; a sum is positive
    (negative) when all its terms are. *)
Fixpoint node_sign (n : node) : bool * bool :=
  match n with
  | Constant v => (value_is_positive v, value_is_negative v)
  | Leaf _ _ _ _ _ pos neg => (pos, neg)
  | AddExpression args =>
      (forallb (fun a => fst (node_sign a)) args,
       forallb (fun a => snd (node_sign a)) args)
  | NegExpression a => let '(pos, neg) := node_sign a in (neg, pos)
  | MulExpression l r | RMulExpression l r | DivExpression l r =>
      mul_sign (node_sign l) (node_sign r)
  | Transpose a => node_sign a
  end.

(** [is_constant] of the base class, on the two abstract methods it
    reads. *)
Definition node_is_constant (n : node) : bool :=
  (List.length (node_variables n) =? 0)%nat
  || (fst (node_sign n) && snd (node_sign n)).

(** Scaling by a factor of known sign: a positive factor preserves
    the curvature, a negative factor swaps convex and concave. *)
Definition scale_curvature (factor curv : bool * bool) : bool * bool :=
  ((fst factor && fst curv) || (snd factor && snd curv),
   (fst factor && snd curv) || (snd factor && fst curv)).

(** Modelled from the spec: the pair (is convex, is concave) of a
    node.  By the curvature lattice CONSTANT is below AFFINE, which is
    both convex and concave, so a constant node is both; otherwise
    the rule table applies: a sum is convex (concave) when all its
    terms are, negation swaps convexity and concavity, a product
    scales the non-constant operand by the sign of the constant one,
    division is multiplication by the reciprocal, transpose leaves the
    curvature unchanged. *)
Fixpoint node_curvature (n : node) : bool * bool :=
  if node_is_constant n then (true, true)
  else
    match n with
    | Constant _ => (true, true)
    | Leaf _ _ _ cvx ccv _ _ => (cvx, ccv)
    | AddExpression args =>
        (forallb (fun a => fst (node_curvature a)) args,
         forallb (fun a => snd (node_curvature a)) args)
    | NegExpression a => let '(cvx, ccv) := node_curvature a in (ccv, cvx)
    | MulExpression l r => scale_curvature (node_sign l) (node_curvature r)
    | RMulExpression l r | DivExpression l r =>
        scale_curvature (node_sign r) (node_curvature l)
    | Transpose a => node_curvature a
    end.

#[export] Instance node_Expression : Expression node nat := {
  variables := node_variables;
  is_convex n := fst (node_curvature n);
  is_concave n := snd (node_curvature n);
  is_positive n := fst (node_sign n);
  is_negative n := snd (node_sign n);
  size := node_size
}.

(** Modelled from the spec: a sum needs broadcast-compatible shapes
    (all non-scalar terms of one shape). *)
Fixpoint check_sum_shapes (acc : nat * nat) (shapes : list (nat * nat))
  : result unit :=
  match shapes with
  | [] => Ok tt
  | sh :: rest =>
      if shape_is_scalar acc then check_sum_shapes sh rest
      else if shape_is_scalar sh || shape_eqb acc sh
           then check_sum_shapes acc rest
      else Raise (DimensionMismatch "+" acc sh)
  end.

(** Modelled from the spec: a product needs a scalar operand or the
    columns of the left to match the rows of the right. *)
Definition check_mul_shapes (lh rh : nat * nat) : result unit :=
  if shape_is_scalar lh || shape_is_scalar rh || (snd lh =? fst rh)%nat
  then Ok tt
  else Raise (DimensionMismatch "*" lh rh).

(** Modelled from the spec: each composition rule validates the shapes
    of its operands, failing with a dimension mismatch that names the
    operator and the two shapes, and then constructs the node. *)
#[export] Instance node_Types : Types node value constraint := {
  constant v := Ok (Constant v);
  add_expr args :=
    _ <- check_sum_shapes (1, 1)%nat (map node_size args) ;;
    Ok (AddExpression args);
  mul_expr l r :=
    _ <- check_mul_shapes (node_size l) (node_size r) ;;
    Ok (MulExpression l r);
  rmul_expr l r :=
    _ <- check_mul_shapes (node_size l) (node_size r) ;;
    Ok (RMulExpression l r);
  div_expr l r := Ok (DivExpression l r);
  neg_expr a := Ok (NegExpression a);
  transpose a := Ok (Transpose a);
  isinstance_constant n :=
    match n with Constant _ => true | _ => false end;
  is_1D_array n :=
    match n with Constant (Array1D _) => true | _ => false end;
  EqConstraint l r := Ok (Equality l r);
  LeqConstraint l r := Ok (Inequality l r);
  PSDConstraint l r := Ok (PSDOrdering l r)
}.

End Nodes.

(** ** Properties of the base class, for every implementation of the
    abstract methods *)

(** The eight labels are pairwise different where it matters. *)
Ltac labels :=
  unfold s.CONSTANT, s.AFFINE, s.CONVEX, s.CONCAVE, s.UNKNOWN,
         s.ZERO, s.POSITIVE, s.NEGATIVE in *;
  repeat split; intros;
  repeat match goal with
         | H : _ /\ _ |- _ => destruct H
         end;
  try discriminate; try congruence; auto.

Section ExpressionFacts.

Context {E X V C : Type} `{Expression E X} `{Types E V C}.

Lemma is_scalar_size (e : E) :
  is_scalar e = true <-> size e = (1, 1)%nat.
Proof.
  unfold is_scalar. destruct (size e) as [rows cols]. split.
  - intros Hs. apply andb_prop in Hs as [Hr Hc].
    apply Nat.eqb_eq in Hr, Hc. now subst.
  - intros Heq. injection Heq as -> ->. reflexivity.
Qed.

Lemma T_of_scalar (e : E) : is_scalar e = true -> T e = Ok e.
Proof. intros Hs. unfold T. now rewrite Hs. Qed.

Lemma T_of_non_square (e : E) :
  fst (size e) <> snd (size e) -> T e = transpose e.
Proof.
  intros Hne. unfold T.
  destruct (is_scalar e) eqn:Hs; [|reflexivity].
  apply is_scalar_size in Hs. rewrite Hs in Hne. now elim Hne.
Qed.

Lemma is_constant_iff (n : E) :
  is_constant n = true <->
  variables n = [] \/ (is_positive n = true /\ is_negative n = true).
Proof.
  unfold is_constant, is_zero. rewrite orb_true_iff, andb_true_iff.
  rewrite Nat.eqb_eq, length_zero_iff_nil. reflexivity.
Qed.

(** C2. The curvature of a node is computed from its predicates by the
    priority order CONSTANT, AFFINE, CONVEX, CONCAVE, UNKNOWN: it is
    the label of the first of is_constant, is_affine, is_convex,
    is_concave that holds, and UNKNOWN when none holds; each label is
    returned exactly when its predicate is the first to hold. *)
Theorem curvature_priority_order (n : E) :
  curvature n = curvature_by_priority n
  /\ (curvature n = s.CONSTANT <-> is_constant n = true)
  /\ (curvature n = s.AFFINE <->
      is_constant n = false /\ is_affine n = true)
  /\ (curvature n = s.CONVEX <->
      is_constant n = false /\ is_affine n = false /\ is_convex n = true)
  /\ (curvature n = s.CONCAVE <->
      is_constant n = false /\ is_affine n = false
      /\ is_convex n = false /\ is_concave n = true)
  /\ (curvature n = s.UNKNOWN <->
      is_constant n = false /\ is_affine n = false
      /\ is_convex n = false /\ is_concave n = false).
Proof.
  unfold curvature_by_priority, curvature. cbn [first_that_holds].
  destruct (is_constant n), (is_affine n), (is_convex n), (is_concave n);
    labels.
Qed.

(** C6. The sign of a node is ZERO exactly when it is both positive
    and negative; otherwise it is POSITIVE, NEGATIVE or UNKNOWN by the
    single predicate that holds. *)
Theorem sign_zero_iff_positive_and_negative (n : E) :
  (sign n = s.ZERO <-> is_positive n = true /\ is_negative n = true)
  /\ sign n = (if is_positive n && is_negative n then s.ZERO
               else sign_by_single_predicate n).
Proof.
  unfold sign, sign_by_single_predicate, is_zero. cbn [first_that_holds].
  destruct (is_positive n), (is_negative n); labels.
Qed.

(** *** Products *)

Lemma mul_unfold (a b : E) :
  __mul__ a (IsExpr b) =
  if negb (is_constant a) && negb (is_constant b) then
    Raise (DCPError "Cannot multiply two non-constants.")
  else if is_constant a then
    l <- (if (fst (size a) =? fst (size b))%nat
             && negb (snd (size a) =? fst (size a))%nat
             && isinstance_constant a && is_1D_array a
          then T a else Ok a) ;;
    mul_expr l b
  else if is_scalar a || is_scalar b then mul_expr b a
  else rmul_expr a b.
Proof. reflexivity. Qed.

(** C1. The product of two non-constant expressions raises the DCP
    error and hands no node back to the caller. *)
Theorem mul_two_non_constants_raises (a b : E) :
  is_constant a = false ->
  is_constant b = false ->
  __mul__ a (IsExpr b) = Raise (DCPError "Cannot multiply two non-constants.")
  /\ forall n, __mul__ a (IsExpr b) <> Ok n.
Proof.
  intros Ha Hb.
  assert (Hraise : __mul__ a (IsExpr b)
                   = Raise (DCPError "Cannot multiply two non-constants.")).
  { rewrite mul_unfold, Ha, Hb. reflexivity. }
  split; [exact Hraise|].
  intros n Hn. rewrite Hraise in Hn. discriminate.
Qed.

(** C3, as amended. In a product with exactly one scalar operand and at
    least one constant operand, the left operand of the multiplication
    node is the constant one, which need not be the scalar:
    - [a] scalar and constant: the node is [mul_expr a b], scalar on the
      left;
    - [b] scalar and constant, [a] not constant: the node is
      [mul_expr b a], scalar on the left;
    - [a] constant and not scalar, [b] scalar: the node is
      [mul_expr a b], scalar on the right, or [mul_expr] of the
      transpose of [a] and [b] exactly when the 1-D array rule applies
      ([a] has as many rows as [b], is not square and is a constant
      built from a 1-D array);
    - [a] a non-constant scalar, [b] constant: the node is
      [mul_expr b a], scalar on the right. *)
Theorem mul_places_constant_left (a b : E) :
  xorb (is_scalar a) (is_scalar b) = true ->
  (is_scalar a = true -> is_constant a = true ->
     __mul__ a (IsExpr b) = mul_expr a b)
  /\ (is_scalar b = true -> is_constant a = false -> is_constant b = true ->
     __mul__ a (IsExpr b) = mul_expr b a)
  /\ (is_scalar b = true -> is_constant a = true ->
     is_scalar a = false
     /\ __mul__ a (IsExpr b)
        = if (fst (size a) =? fst (size b))%nat
             && negb (snd (size a) =? fst (size a))%nat
             && isinstance_constant a && is_1D_array a
          then t <- transpose a ;; mul_expr t b
          else mul_expr a b)
  /\ (is_scalar a = true -> is_constant a = false -> is_constant b = true ->
     is_scalar b = false
     /\ __mul__ a (IsExpr b) = mul_expr b a).
Proof.
  intros Hone. rewrite mul_unfold. split; [|split; [|split]].
  - intros Hs Hc. rewrite Hc. cbn [negb andb].
    apply is_scalar_size in Hs. rewrite Hs. cbn [fst snd].
    rewrite Nat.eqb_refl. cbn [negb]. rewrite andb_false_r.
    reflexivity.
  - intros Hs Ha Hb. rewrite Ha, Hb, Hs. cbn [negb andb].
    rewrite orb_true_r. reflexivity.
  - intros Hs Hc.
    rewrite Hs, xorb_true_r in Hone. apply negb_true_iff in Hone.
    split; [exact Hone|].
    rewrite Hc. cbn [negb andb]. unfold T. rewrite Hone.
    match goal with |- context [if ?c then transpose a else Ok a] =>
      destruct c end; reflexivity.
  - intros Hs Ha Hb. rewrite Hs in Hone. cbn [xorb] in Hone.
    apply negb_true_iff in Hone. split; [exact Hone|].
    rewrite Ha, Hb, Hs. reflexivity.
Qed.

(** C4. With a constant left operand [a], the product transposes [a]
    first exactly when [a] has as many rows as [b], is not square and
    is a constant built from a 1-D array; in every other case with
    [a] constant the multiplication node takes [a] itself. *)
Theorem mul_transposes_1D_constant (a b : E) :
  is_constant a = true ->
  (fst (size a) = fst (size b) ->
   snd (size a) <> fst (size a) ->
   isinstance_constant a = true ->
   is_1D_array a = true ->
   __mul__ a (IsExpr b) = (t <- transpose a ;; mul_expr t b))
  /\ (~ (fst (size a) = fst (size b)
         /\ snd (size a) <> fst (size a)
         /\ isinstance_constant a = true
         /\ is_1D_array a = true) ->
      __mul__ a (IsExpr b) = mul_expr a b).
Proof.
  intros Hc. rewrite mul_unfold, Hc. cbn [negb andb]. split.
  - intros Hrows Hsq Hinst H1d.
    rewrite Hinst, H1d.
    apply Nat.eqb_eq in Hrows. rewrite Hrows.
    apply Nat.eqb_neq in Hsq. rewrite Hsq. cbn [negb andb].
    rewrite T_of_non_square; [reflexivity|].
    apply Nat.eqb_neq in Hsq. congruence.
  - intros Hnot.
    destruct (fst (size a) =? fst (size b))%nat eqn:Hrows;
      [|reflexivity].
    destruct (snd (size a) =? fst (size a))%nat eqn:Hsq;
      [reflexivity|].
    destruct (isinstance_constant a) eqn:Hinst; [|reflexivity].
    destruct (is_1D_array a) eqn:H1d; [|reflexivity].
    exfalso. apply Hnot.
    apply Nat.eqb_eq in Hrows. apply Nat.eqb_neq in Hsq. tauto.
Qed.

(** *** Quotients *)

(** C5. A quotient returns a node exactly when the divisor, once cast,
    is constant and scalar, and that node is the one the division
    constructor builds; with any other divisor (non-constant, or
    constant but not scalar) the DCP error is raised. *)
Theorem div_iff_constant_scalar (a : E) (b : operand E V) (b' : E) :
  cast_to_const b = Ok b' ->
  (forall n, __div__ a b = Ok n <->
             (is_constant b' = true /\ is_scalar b' = true)
             /\ div_expr a b' = Ok n)
  /\ (~ (is_constant b' = true /\ is_scalar b' = true) ->
      __div__ a b = Raise (DCPError "Can only divide by a scalar constant.")).
Proof.
  intros Hcast. unfold __div__, _cast_other. rewrite Hcast.
  cbn [bind].
  destruct (is_constant b'), (is_scalar b'); cbn [andb];
    repeat split; intros;
    repeat match goal with
           | Hx : _ /\ _ |- _ => destruct Hx
           | Hx : _ \/ _ |- _ => destruct Hx
           end;
    try discriminate; try congruence; auto;
    try (exfalso; auto; fail).
Qed.

(** *** Sums and differences *)

(** C10. A difference is the sum of the left operand and the negation
    of the cast right operand, a reflected difference casts the
    number and subtracts; no other constructor is involved, so the
    curvature and the sign of a difference are those of the sum with
    the negation. *)
Theorem sub_is_add_of_negation (a : E) (b : operand E V) (number : V) :
  __sub__ a b = add_of_negation a b
  /\ __sub__ a b = (b' <- cast_to_const b ;;
                    negated <- __neg__ b' ;;
                    __add__ a (IsExpr negated))
  /\ __rsub__ a (Literal number)
     = (c <- cast_to_const (Literal number) ;; __sub__ c (IsExpr a))
  /\ fmap curvature (__sub__ a b) = fmap curvature (add_of_negation a b)
  /\ fmap sign (__sub__ a b) = fmap sign (add_of_negation a b).
Proof.
  assert (Hsub : __sub__ a b = add_of_negation a b) by reflexivity.
  rewrite Hsub. repeat split; reflexivity.
Qed.

(** *** Comparisons *)

(** C9. [a >= b] is the inequality constraint with the cast [b] on the
    left and [a] on the right, and the strict comparisons build what
    the non-strict ones build. *)
Theorem ge_is_reflected_le (a : E) (b : operand E V) :
  __ge__ a b = (b' <- cast_to_const b ;; __le__ b' (IsExpr a))
  /\ __ge__ a b = (b' <- cast_to_const b ;; LeqConstraint b' a)
  /\ __gt__ a b = __ge__ a b
  /\ __lt__ a b = __le__ a b.
Proof. repeat split; reflexivity. Qed.

End ExpressionFacts.

(** ** Properties of the concrete nodes *)

Section NodeFacts.

Import Nodes.

Lemma node_curvature_unfold (n : node) :
  node_curvature n =
  if node_is_constant n then (true, true)
  else
    match n with
    | Constant _ => (true, true)
    | Leaf _ _ _ cvx ccv _ _ => (cvx, ccv)
    | AddExpression args =>
        (forallb (fun a => fst (node_curvature a)) args,
         forallb (fun a => snd (node_curvature a)) args)
    | NegExpression a => let '(cvx, ccv) := node_curvature a in (ccv, cvx)
    | MulExpression l r => scale_curvature (node_sign l) (node_curvature r)
    | RMulExpression l r | DivExpression l r =>
        scale_curvature (node_sign r) (node_curvature l)
    | Transpose a => node_curvature a
    end.
Proof. destruct n; reflexivity. Qed.

(** A constant node sits at the bottom of the curvature lattice. *)
Lemma node_curvature_constant (n : node) :
  node_is_constant n = true -> node_curvature n = (true, true).
Proof. intros Hc. rewrite node_curvature_unfold, Hc. reflexivity. Qed.

Lemma node_is_constant_Transpose (a : node) :
  node_is_constant (Transpose a) = node_is_constant a.
Proof. reflexivity. Qed.

Lemma node_curvature_Transpose (a : node) :
  node_curvature (Transpose a) = node_curvature a.
Proof.
  rewrite (node_curvature_unfold (Transpose a)).
  rewrite node_is_constant_Transpose.
  destruct (node_is_constant a) eqn:Hc; [|reflexivity].
  symmetry. now apply node_curvature_constant.
Qed.

Lemma curvature_Transpose (a : node) :
  curvature (Transpose a) = curvature a.
Proof.
  unfold curvature, is_affine, is_constant, is_zero.
  cbn [variables is_convex is_concave is_positive is_negative
       node_Expression].
  rewrite node_curvature_Transpose. reflexivity.
Qed.

Lemma sign_Transpose (a : node) : sign (Transpose a) = sign a.
Proof. reflexivity. Qed.

Lemma size_Transpose (a : node) :
  size (Transpose a) = (snd (size a), fst (size a)).
Proof.
  cbn [size node_Expression node_size].
  destruct (node_size a). reflexivity.
Qed.

Lemma T_node (a : node) :
  T a = Ok (if is_scalar a then a else Transpose a).
Proof. unfold T. destruct (is_scalar a); reflexivity. Qed.

(** C7. A constant node (being constant is: no free variables, or
    identically zero) has curvature CONSTANT and is DCP, where a node
    is DCP exactly when it is convex or concave. *)
Theorem constant_node_is_dcp (n : node) :
  is_constant n = true ->
  curvature n = s.CONSTANT
  /\ is_dcp n = true
  /\ (forall m : node,
        is_constant m = true <->
        variables m = [] \/ (is_positive m = true /\ is_negative m = true))
  /\ (forall m : node,
        is_dcp m = true <-> is_convex m = true \/ is_concave m = true).
Proof.
  intros Hc.
  split; [unfold curvature; now rewrite Hc|].
  split.
  - unfold is_dcp. cbn [is_convex node_Expression].
    rewrite node_curvature_constant; [reflexivity|exact Hc].
  - split; intros m; [apply is_constant_iff|].
    unfold is_dcp. apply orb_true_iff.
Qed.

(** C8. The transpose of a scalar is that very node, and transposing
    a square (or scalar) node twice gives a node with the dimensions,
    the curvature and the sign of the original. *)
Theorem transpose_twice (a : node) :
  fst (size a) = snd (size a) ->
  (is_scalar a = true -> T a = Ok a)
  /\ exists t, (t1 <- T a ;; T t1) = Ok t
               /\ size t = size a
               /\ curvature t = curvature a
               /\ sign t = sign a.
Proof.
  intros Hsq. split; [apply T_of_scalar|].
  rewrite T_node. cbn [bind]. rewrite T_node.
  destruct (is_scalar a) eqn:Hs.
  - rewrite Hs. exists a. repeat split.
  - assert (Hst : is_scalar (Transpose a) = false).
    { unfold is_scalar in *. rewrite size_Transpose.
      destruct (size a) as [rows cols]. cbn [fst snd] in *.
      subst cols. exact Hs. }
    rewrite Hst. exists (Transpose (Transpose a)). split; [reflexivity|].
    split.
    + rewrite !size_Transpose. cbn [fst snd]. now destruct (size a).
    + split.
      * now rewrite !curvature_Transpose.
      * reflexivity.
Qed.

End NodeFacts.

(** ** The operators at work on concrete nodes *)

Module Examples.

Import Nodes.

(** Two scalar variables, a 2 x 2 and a 3 x 1 variable. *)
Definition x : node := Leaf [0%nat] 1 1 true true false false.
Definition y : node := Leaf [1%nat] 1 1 true true false false.
Definition M : node := Leaf [2%nat] 2 2 true true false false.
Definition u : node := Leaf [3%nat] 3 1 true true false false.

(** A nonnegative function node of unknown curvature. *)
Definition f : node := Leaf [0%nat] 1 1 false false true false.

(** Constants: a scalar, a 2 x 2 matrix, a 1-D array of length 3. *)
Definition five : node := Constant (Scalar 5).
Definition A : node := Constant (Array2D [[1; 2]; [3; 4]]%Z).
Definition c : node := Constant (Array1D [1; 2; 3]%Z).

(** A variable without rows. *)
Definition empty : node := Leaf [4%nat] 0 1 true true false false.

(** Zero times a nonnegative function of a variable. *)
Definition zero_f : node := MulExpression (Constant (Scalar 0)) f.

Example curvature_x : curvature x = s.AFFINE.
Proof. reflexivity. Qed.

Example curvature_five : curvature five = s.CONSTANT /\ sign five = s.POSITIVE.
Proof. split; reflexivity. Qed.

Example five_times_x :
  __mul__ five (IsExpr x) = Ok (MulExpression five x).
Proof. reflexivity. Qed.

Example x_times_five :
  __mul__ x (Literal (Scalar 5)) = Ok (MulExpression five x).
Proof. reflexivity. Qed.

Example M_times_A :
  __mul__ M (IsExpr A) = Ok (RMulExpression M A).
Proof. reflexivity. Qed.

Example c_times_u_shapes :
  mul_expr c u = Raise (DimensionMismatch "*" (3, 1)%nat (3, 1)%nat).
Proof. reflexivity. Qed.

Example x_minus_three :
  __sub__ x (Literal (Scalar 3))
  = Ok (AddExpression [x; NegExpression (Constant (Scalar 3))]).
Proof. reflexivity. Qed.

Example repr_x : __repr__ x = "Expression(AFFINE, UNKNOWN, (1, 1))".
Proof. reflexivity. Qed.

Example repr_A : __repr__ A = "Expression(CONSTANT, POSITIVE, (2, 2))".
Proof. reflexivity. Qed.

Example M_is_matrix : is_matrix M = true /\ is_vector u = true.
Proof. split; reflexivity. Qed.

(** Zero times a variable is zero, hence constant, and may multiply a
    variable in turn. *)
Example zero_times_x :
  sign (MulExpression (Constant (Scalar 0)) x) = s.ZERO
  /\ is_constant (MulExpression (Constant (Scalar 0)) x) = true
  /\ __mul__ (MulExpression (Constant (Scalar 0)) x) (IsExpr y)
     = Ok (MulExpression (MulExpression (Constant (Scalar 0)) x) y).
Proof. repeat split; reflexivity. Qed.

Example x_le_three :
  __le__ x (Literal (Scalar 3)) = Ok (Inequality x (Constant (Scalar 3))).
Proof. reflexivity. Qed.

End Examples.

Section Witnesses.

Import Nodes Examples.

Lemma mul_two_non_constants_raises_witness :
  __mul__ x (IsExpr y) = Raise (DCPError "Cannot multiply two non-constants.")
  /\ forall n, __mul__ x (IsExpr y) <> Ok n.
Proof.
  apply (mul_two_non_constants_raises x y); reflexivity.
Defined.

(** C3, the claim as written fails: with a constant 2 x 2 matrix on the
    left and a scalar constant on the right, and with a scalar
    variable on the left and the matrix on the right, exactly one
    operand is scalar and the multiplication node has the matrix on
    the left and the scalar on the right. *)
Lemma mul_scalar_placed_right_counterexample :
  (xorb (is_scalar A) (is_scalar five) = true
   /\ is_scalar five = true
   /\ __mul__ A (IsExpr five) = Ok (MulExpression A five)
   /\ __mul__ A (IsExpr five) <> mul_expr five A)
  /\ (xorb (is_scalar x) (is_scalar A) = true
      /\ is_scalar x = true
      /\ __mul__ x (IsExpr A) = Ok (MulExpression A x)
      /\ __mul__ x (IsExpr A) <> mul_expr x A).
Proof.
  repeat split; try reflexivity; cbv; discriminate.
Qed.

Lemma mul_places_constant_left_witness :
  __mul__ five (IsExpr M) = mul_expr five M
  /\ __mul__ M (IsExpr five) = mul_expr five M
  /\ __mul__ A (IsExpr five) = mul_expr A five
  /\ __mul__ x (IsExpr A) = mul_expr A x.
Proof.
  split; [|split; [|split]].
  - destruct (mul_places_constant_left five M) as (Hleft & _);
      [reflexivity|].
    apply Hleft; reflexivity.
  - destruct (mul_places_constant_left M five) as (_ & Hswap & _);
      [reflexivity|].
    apply Hswap; reflexivity.
  - destruct (mul_places_constant_left A five) as (_ & _ & Hright & _);
      [reflexivity|].
    apply Hright; reflexivity.
  - destruct (mul_places_constant_left x A) as (_ & _ & _ & Hswap);
      [reflexivity|].
    apply Hswap; reflexivity.
Defined.

Lemma mul_transposes_1D_constant_witness :
  __mul__ c (IsExpr u) = Ok (MulExpression (Transpose c) u)
  /\ __mul__ A (IsExpr M) = Ok (MulExpression A M).
Proof.
  split.
  - destruct (mul_transposes_1D_constant c u) as (Htransposed & _);
      [reflexivity|].
    apply Htransposed; try reflexivity. cbn. discriminate.
  - destruct (mul_transposes_1D_constant A M) as (_ & Hunchanged);
      [reflexivity|].
    apply Hunchanged. cbn. intros (_ & Hsq & _). now apply Hsq.
Defined.

Lemma div_iff_constant_scalar_witness :
  (forall n, __div__ x (Literal (Scalar 2)) = Ok n <->
             (is_constant (Constant (Scalar 2)) = true
              /\ is_scalar (Constant (Scalar 2)) = true)
             /\ div_expr x (Constant (Scalar 2)) = Ok n)
  /\ (~ (is_constant (Constant (Scalar 2)) = true
         /\ is_scalar (Constant (Scalar 2)) = true) ->
      __div__ x (Literal (Scalar 2))
      = Raise (DCPError "Can only divide by a scalar constant.")).
Proof.
  apply (div_iff_constant_scalar x (Literal (Scalar 2))). reflexivity.
Defined.

(** Zero times a function of unknown curvature: identically zero,
    hence constant although it mentions a variable. *)
Lemma constant_node_is_dcp_witness :
  curvature (MulExpression (Constant (Scalar 0)) f) = s.CONSTANT
  /\ is_dcp (MulExpression (Constant (Scalar 0)) f) = true.
Proof.
  destruct (constant_node_is_dcp (MulExpression (Constant (Scalar 0)) f))
    as (Hcurv & Hdcp & _); [reflexivity|].
  split; [exact Hcurv|exact Hdcp].
Defined.

Lemma transpose_twice_witness :
  (is_scalar M = true -> T M = Ok M)
  /\ exists t, (t1 <- T M ;; T t1) = Ok t
               /\ size t = size M
               /\ curvature t = curvature M
               /\ sign t = sign M.
Proof.
  apply (transpose_twice M). reflexivity.
Defined.

End Witnesses.


(** ** Further properties of the base class *)

Section MoreExpressionFacts.

Context {E X V C : Type} `{Expression E X} `{Types E V C}.

(** *** Sign and curvature labels against the declared predicates *)

Lemma sign_ZERO_is_zero (n : E) : sign n = s.ZERO -> is_zero n = true.
Proof.
  unfold sign. intros Hz. destruct (is_zero n); [reflexivity|].
  destruct (is_positive n); [labels|]. destruct (is_negative n); labels.
Qed.

Lemma sign_ZERO_is_constant (n : E) :
  sign n = s.ZERO -> is_constant n = true.
Proof.
  intros Hz. unfold is_constant.
  rewrite (sign_ZERO_is_zero n Hz). apply orb_true_r.
Qed.

(** A node without variables is constant whatever its curvature
    predicates say: its curvature is CONSTANT and it is affine. *)
Theorem no_variables_is_constant (n : E) :
  variables n = [] ->
  is_constant n = true /\ curvature n = s.CONSTANT /\ is_affine n = true.
Proof.
  intros Hv.
  assert (Hc : is_constant n = true).
  { apply is_constant_iff. now left. }
  unfold curvature, is_affine. rewrite Hc. repeat split.
Qed.

(** A node whose sign is ZERO counts as constant, whatever variables it
    mentions: its curvature is CONSTANT and it is affine. *)
Theorem zero_sign_is_constant (n : E) :
  sign n = s.ZERO ->
  is_constant n = true /\ curvature n = s.CONSTANT /\ is_affine n = true.
Proof.
  intros Hz. pose proof (sign_ZERO_is_constant n Hz) as Hc.
  unfold curvature, is_affine. rewrite Hc. repeat split.
Qed.

(** The sign labels read on the two sign predicates: POSITIVE means
    positive and not negative, NEGATIVE means negative and not positive,
    UNKNOWN means neither. *)
Theorem sign_labels (n : E) :
  (sign n = s.POSITIVE <-> is_positive n = true /\ is_negative n = false)
  /\ (sign n = s.NEGATIVE <-> is_positive n = false /\ is_negative n = true)
  /\ (sign n = s.UNKNOWN <-> is_positive n = false /\ is_negative n = false).
Proof.
  unfold sign, is_zero.
  destruct (is_positive n), (is_negative n); labels.
Qed.

(** The curvature labels of a non-constant node read on the two
    curvature predicates: AFFINE means convex and concave, CONVEX means
    convex and not concave, CONCAVE means concave and not convex. *)
Theorem curvature_labels (n : E) :
  (curvature n = s.AFFINE <->
   is_constant n = false /\ is_convex n = true /\ is_concave n = true)
  /\ (curvature n = s.CONVEX <->
      is_constant n = false /\ is_convex n = true /\ is_concave n = false)
  /\ (curvature n = s.CONCAVE <->
      is_constant n = false /\ is_convex n = false /\ is_concave n = true).
Proof.
  unfold curvature, is_affine.
  destruct (is_constant n), (is_convex n), (is_concave n); labels.
Qed.

(** A node is affine exactly when its curvature label is CONSTANT or
    AFFINE. *)
Theorem is_affine_iff_curvature (n : E) :
  is_affine n = true <->
  curvature n = s.CONSTANT \/ curvature n = s.AFFINE.
Proof.
  unfold curvature, is_affine.
  destruct (is_constant n), (is_convex n), (is_concave n); cbn;
    (split;
     [ intros Hx; try discriminate Hx;
       ((left; reflexivity) || (right; reflexivity))
     | intros [Hx | Hx]; labels ]).
Qed.

(** The curvature label is UNKNOWN exactly for the nodes that are
    neither constant nor DCP; a DCP node never has curvature UNKNOWN. *)
Theorem unknown_curvature_iff_not_dcp (n : E) :
  (curvature n = s.UNKNOWN <-> is_constant n = false /\ is_dcp n = false)
  /\ (is_dcp n = true -> curvature n <> s.UNKNOWN).
Proof.
  unfold curvature, is_affine, is_dcp.
  destruct (is_constant n), (is_convex n), (is_concave n); cbn; labels.
Qed.

(** *** Shapes *)

(** A scalar is a vector, and no node is both a vector and a matrix (so
    a matrix is not a scalar either). *)
Theorem scalar_vector_matrix (n : E) :
  (is_scalar n = true -> is_vector n = true)
  /\ (is_matrix n = true -> is_vector n = false)
  /\ (is_matrix n = true -> is_scalar n = false).
Proof.
  unfold is_scalar, is_vector, is_matrix.
  destruct (size n) as [rows cols]. cbn [fst snd].
  repeat split; intros Hx.
  - apply andb_prop in Hx as [Hr Hc].
    apply Nat.eqb_eq in Hr, Hc. subst. reflexivity.
  - apply andb_prop in Hx as [Hr Hc].
    apply Nat.ltb_lt in Hr, Hc. apply Nat.eqb_neq. lia.
  - apply andb_prop in Hx as [Hr Hc].
    apply Nat.ltb_lt in Hr. apply andb_false_iff. left.
    apply Nat.eqb_neq. lia.
Qed.

(** With at least one row and one column, a node is either a vector or
    a matrix. *)
Theorem vector_or_matrix (n : E) :
  1 <= fst (size n) ->
  1 <= snd (size n) ->
  is_matrix n = negb (is_vector n).
Proof.
  unfold is_vector, is_matrix. intros Hr Hc.
  destruct (Nat.min (fst (size n)) (snd (size n)) =? 1)%nat eqn:Hmin;
    cbn [negb].
  - apply Nat.eqb_eq in Hmin. apply andb_false_iff.
    rewrite !Nat.ltb_ge. lia.
  - apply Nat.eqb_neq in Hmin. apply andb_true_iff.
    rewrite !Nat.ltb_lt. lia.
Qed.

(** A node with no rows or no columns is neither a vector nor a
    matrix. *)
Theorem empty_shape_is_nothing (n : E) :
  fst (size n) = 0%nat \/ snd (size n) = 0%nat ->
  is_scalar n = false /\ is_vector n = false /\ is_matrix n = false.
Proof.
  unfold is_scalar, is_vector, is_matrix. intros Hz.
  destruct (size n) as [rows cols]. cbn [fst snd] in *.
  repeat split.
  - apply andb_false_iff. rewrite !Nat.eqb_neq. lia.
  - apply Nat.eqb_neq. lia.
  - apply andb_false_iff. rewrite !Nat.ltb_ge. lia.
Qed.

(** *** The decorator *)

Lemma cast_other_twice {R : Type} (binary_op : E -> E -> result R)
  (self : E) (other : operand E V) :
  _cast_other (fun a b => _cast_other binary_op a (IsExpr b)) self other
  = _cast_other binary_op self other.
Proof.
  unfold _cast_other. destruct (cast_to_const other); reflexivity.
Qed.

(** *** Products *)

(** A scalar constant multiplies a non-constant expression from either
    side to the same effect: [x * c], the reflected product and [c * x]
    all hand [c] as the coefficient and [x] as the right operand to the
    multiplication constructor. *)
Theorem mul_scalar_constant_commutes (x c : E) (b : operand E V) :
  cast_to_const b = Ok c ->
  is_constant c = true ->
  is_scalar c = true ->
  is_constant x = false ->
  __mul__ x b = mul_expr c x
  /\ __rmul__ x b = mul_expr c x
  /\ __mul__ c (IsExpr x) = mul_expr c x.
Proof.
  intros Hcast Hc Hs Hx.
  assert (Hcx : __mul__ c (IsExpr x) = mul_expr c x).
  { rewrite mul_unfold, Hc. cbn [negb andb].
    apply is_scalar_size in Hs. rewrite Hs. cbn [fst snd].
    rewrite Nat.eqb_refl. cbn [negb]. rewrite andb_false_r. reflexivity. }
  repeat split.
  - unfold __mul__, _cast_other. rewrite Hcast. cbn [bind].
    rewrite Hx, Hc, Hs. cbn [negb andb]. rewrite orb_true_r. reflexivity.
  - unfold __rmul__, _cast_other at 1. rewrite Hcast. cbn [bind].
    exact Hcx.
  - exact Hcx.
Qed.

Lemma mul_constant_left_cases (a b : E) :
  is_constant a = true ->
  __mul__ a (IsExpr b) = mul_expr a b
  \/ __mul__ a (IsExpr b) = (t <- transpose a ;; mul_expr t b).
Proof.
  intros Ha. rewrite mul_unfold, Ha. cbn [negb andb].
  destruct (fst (size a) =? fst (size b))%nat; [|left; reflexivity].
  destruct (snd (size a) =? fst (size a))%nat eqn:Hsq;
    [left; reflexivity|].
  destruct (isinstance_constant a); [|left; reflexivity].
  destruct (is_1D_array a); [|left; reflexivity].
  right. cbn [negb andb]. rewrite T_of_non_square; [reflexivity|].
  apply Nat.eqb_neq in Hsq. congruence.
Qed.

(** Every product with a constant operand is handed to a constructor
    with the constant in a fixed place: a constant left operand goes to
    the left of [mul_expr], as it is or transposed; a constant right
    operand goes to the left of [mul_expr] when an operand is scalar
    and otherwise stays on the right, under [rmul_expr], and it is never
    transposed. *)
Theorem mul_with_constant_operand (a b : E) :
  is_constant a || is_constant b = true ->
  (is_constant a = true
   /\ (__mul__ a (IsExpr b) = mul_expr a b
       \/ __mul__ a (IsExpr b) = (t <- transpose a ;; mul_expr t b)))
  \/ (is_constant a = false /\ is_constant b = true
      /\ is_scalar a || is_scalar b = true
      /\ __mul__ a (IsExpr b) = mul_expr b a)
  \/ (is_constant a = false /\ is_constant b = true
      /\ is_scalar a = false /\ is_scalar b = false
      /\ __mul__ a (IsExpr b) = rmul_expr a b).
Proof.
  intros Hab.
  destruct (is_constant a) eqn:Ha.
  - left. split; [reflexivity|]. now apply mul_constant_left_cases.
  - right. rewrite mul_unfold, Ha. cbn [orb] in Hab. rewrite Hab.
    cbn [negb andb].
    destruct (is_scalar a) eqn:Hsa; [left; auto|].
    destruct (is_scalar b) eqn:Hsb; [left; auto|].
    right. auto.
Qed.

(** An expression whose sign is ZERO can multiply any expression, also
    a non-constant one: the product is never rejected as a product of
    two non-constants. *)
Theorem zero_times_anything (a b : E) :
  sign a = s.ZERO ->
  __mul__ a (IsExpr b) = mul_expr a b
  \/ __mul__ a (IsExpr b) = (t <- transpose a ;; mul_expr t b).
Proof.
  intros Hz. apply mul_constant_left_cases.
  now apply sign_ZERO_is_constant.
Qed.

(** *** Quotients *)

(** True division is division: the two operators, and their two
    reflected forms, return the same on every pair of operands. *)
Theorem truediv_is_div (a : E) (b : operand E V) :
  __truediv__ a b = __div__ a b
  /\ __rtruediv__ a b = __rdiv__ a b.
Proof.
  split; [|reflexivity].
  unfold __truediv__, __div__. apply cast_other_twice.
Qed.

Lemma rdiv_unfold (a : E) (number : operand E V) :
  __rdiv__ a number
  = (c <- cast_to_const number ;;
     if is_constant a && is_scalar a then div_expr c a
     else Raise (DCPError "Can only divide by a scalar constant.")).
Proof.
  unfold __rdiv__, _cast_other at 1.
  destruct (cast_to_const number); reflexivity.
Qed.

(** A number over an expression that is not a scalar constant never
    gives a node: once the number is cast, the DCP error is raised. *)
Theorem number_over_expression_raises (a : E) (number : operand E V) :
  is_constant a && is_scalar a = false ->
  (forall n, __rdiv__ a number <> Ok n)
  /\ (forall c, cast_to_const number = Ok c ->
      __rdiv__ a number
      = Raise (DCPError "Can only divide by a scalar constant.")).
Proof.
  intros Ha. rewrite rdiv_unfold, Ha.
  destruct (cast_to_const number) as [c | e]; cbn [bind].
  - split; [intros n Hn; discriminate|reflexivity].
  - split; [intros n Hn; discriminate|intros c Hc; discriminate].
Qed.

(** The division operator does not look at the value of the divisor:
    a scalar whose sign is ZERO is constant, and dividing by it is
    handed to the division constructor like any other scalar
    constant. *)
Theorem div_by_zero_sign_scalar (a b : E) :
  sign b = s.ZERO ->
  is_scalar b = true ->
  __div__ a (IsExpr b) = div_expr a b.
Proof.
  intros Hz Hs. apply sign_ZERO_is_constant in Hz as Hc.
  unfold __div__, _cast_other. cbn [cast_to_const bind].
  rewrite Hc, Hs. reflexivity.
Qed.

(** *** Reflected operators *)

(** The reflected forms of the operators that do not commute keep the
    orientation: [number - a] negates [a] and not the number, and
    [number / a] divides the number by [a]; [number + a] lists the
    number first. *)
Theorem reflected_operators_keep_orientation (a : E) (number : operand E V) :
  __rsub__ a number
  = (c <- cast_to_const number ;;
     negated <- neg_expr a ;;
     add_expr [c; negated])
  /\ __rdiv__ a number
     = (c <- cast_to_const number ;;
        if is_constant a && is_scalar a then div_expr c a
        else Raise (DCPError "Can only divide by a scalar constant."))
  /\ __radd__ a number
     = (c <- cast_to_const number ;; add_expr [c; a]).
Proof.
  rewrite rdiv_unfold. unfold __rsub__, __radd__.
  repeat split; unfold _cast_other at 1;
    destruct (cast_to_const number); reflexivity.
Qed.

(** *** Positive semidefinite ordering *)

(** [a >> b] and [b << a] build the same constraint, with [a] first,
    and the reflected forms agree with the direct ones on the cast
    operand. *)
Theorem psd_operators_agree (a b : E) (other : operand E V) :
  __rshift__ a (IsExpr b) = PSDConstraint a b
  /\ __lshift__ b (IsExpr a) = PSDConstraint a b
  /\ __rrshift__ a other
     = (c <- cast_to_const other ;; __rshift__ c (IsExpr a))
  /\ __rlshift__ a other
     = (c <- cast_to_const other ;; __lshift__ c (IsExpr a)).
Proof.
  repeat split; try reflexivity;
    unfold __rrshift__, __rlshift__, _cast_other at 1;
    destruct (cast_to_const other); reflexivity.
Qed.

End MoreExpressionFacts.

(** ** The printed form of an expression *)

Section PrintingFacts.

Context {E X : Type} `{Expression E X}.

Lemma int_of_str_of_int (n : nat) : int_of_str (str_of_int n) = Some n.
Proof.
  unfold int_of_str, str_of_int.
  destruct (Nat.to_uint n) eqn:Hd;
    try (rewrite NilZero.usu by discriminate; cbn [option_map];
         rewrite <- Hd; now rewrite Unsigned.of_to).
  cbn. f_equal. rewrite <- (Unsigned.of_to n), Hd. reflexivity.
Qed.

Lemma str_of_int_inj (n m : nat) : str_of_int n = str_of_int m -> n = m.
Proof.
  intros Heq. apply (f_equal int_of_str) in Heq.
  rewrite !int_of_str_of_int in Heq. now injection Heq.
Qed.

Lemma digits_char_free (ch : ascii) (d : uint) :
  char_free ch "0123456789" = true ->
  char_free ch (NilEmpty.string_of_uint d) = true.
Proof.
  intros Hch. cbn [char_free] in Hch.
  repeat (apply andb_prop in Hch as [? Hch]).
  induction d; cbn [NilEmpty.string_of_uint char_free];
    try reflexivity; apply andb_true_intro; split; assumption.
Qed.

Lemma str_of_int_char_free (ch : ascii) (n : nat) :
  char_free ch "0123456789" = true ->
  char_free ch (str_of_int n) = true.
Proof.
  intros Hch. unfold str_of_int, NilZero.string_of_uint.
  destruct (Nat.to_uint n) eqn:Hd; try (now apply digits_char_free).
  cbn [char_free] in *. apply andb_prop in Hch as [-> _]. reflexivity.
Qed.

Lemma string_append_assoc (s1 s2 s3 : string) :
  ((s1 ++ s2) ++ s3 = s1 ++ (s2 ++ s3))%string.
Proof.
  induction s1 as [|c s1 IH]; cbn [append]; [reflexivity|].
  now rewrite IH.
Qed.

(** Two strings that agree after a first occurrence of a character
    agree before and after it. *)
Lemma split_at_char (ch : ascii) (s1 s2 r1 r2 : string) :
  char_free ch s1 = true ->
  char_free ch s2 = true ->
  (s1 ++ String ch r1 = s2 ++ String ch r2)%string ->
  s1 = s2 /\ r1 = r2.
Proof.
  revert s2. induction s1 as [|c1 s1 IH]; intros [|c2 s2] H1 H2 Heq;
    cbn [append char_free] in *.
  - injection Heq as ->. now split.
  - injection Heq as <- _. apply andb_prop in H2 as [H2 _].
    rewrite Ascii.eqb_refl in H2. discriminate.
  - injection Heq as -> _. apply andb_prop in H1 as [H1 _].
    rewrite Ascii.eqb_refl in H1. discriminate.
  - injection Heq as -> Heq.
    apply andb_prop in H1 as [_ H1]. apply andb_prop in H2 as [_ H2].
    destruct (IH s2 H1 H2 Heq) as [-> ->]. now split.
Qed.

Lemma curvature_char_free (n : E) : char_free "," (curvature n) = true.
Proof.
  unfold curvature.
  destruct (is_constant n), (is_affine n), (is_convex n), (is_concave n);
    reflexivity.
Qed.

Lemma sign_char_free (n : E) : char_free "," (sign n) = true.
Proof.
  unfold sign.
  destruct (is_zero n), (is_positive n), (is_negative n); reflexivity.
Qed.

(** The printed form of a size gives the size back. *)
Lemma str_of_size_inj (sz1 sz2 : nat * nat) (r1 r2 : string) :
  (str_of_size sz1 ++ r1 = str_of_size sz2 ++ r2)%string ->
  sz1 = sz2 /\ r1 = r2.
Proof.
  destruct sz1 as [rows1 cols1], sz2 as [rows2 cols2].
  unfold str_of_size. cbn [fst snd append]. intros Heq.
  injection Heq as Heq.
  rewrite !string_append_assoc in Heq. cbn [append] in Heq.
  apply split_at_char in Heq as [Hrows Heq];
    try (now apply str_of_int_char_free).
  injection Heq as Heq.
  rewrite ?string_append_assoc in Heq. cbn [append] in Heq.
  apply split_at_char in Heq as [Hcols Heq];
    try (now apply str_of_int_char_free).
  apply str_of_int_inj in Hrows, Hcols. subst. now split.
Qed.

(** The printed form of an expression determines what it prints: two
    expressions have the same [repr] exactly when they have the same
    curvature label, the same sign label and the same dimensions. *)
Theorem repr_determines_classification (a b : E) :
  __repr__ a = __repr__ b <->
  curvature a = curvature b /\ sign a = sign b /\ size a = size b.
Proof.
  unfold __repr__. split;
    [intros Heq | intros (-> & -> & ->); reflexivity].
  remember (str_of_size (size a)) as size_a eqn:Hsa.
  remember (str_of_size (size b)) as size_b eqn:Hsb.
  cbn [append] in Heq. injection Heq as Heq.
  apply split_at_char in Heq as [Hcurv Heq];
    try apply curvature_char_free.
  injection Heq as Heq.
  apply split_at_char in Heq as [Hsign Heq]; try apply sign_char_free.
  injection Heq as Heq. subst size_a size_b.
  apply str_of_size_inj in Heq as [Hsize _].
  now repeat split.
Qed.

End PrintingFacts.


Section MoreWitnesses.

Import Nodes Examples.

Lemma no_variables_is_constant_witness :
  is_constant five = true /\ curvature five = s.CONSTANT
  /\ is_affine five = true.
Proof. apply (no_variables_is_constant five). reflexivity. Defined.

Lemma zero_sign_is_constant_witness :
  is_constant zero_f = true /\ curvature zero_f = s.CONSTANT
  /\ is_affine zero_f = true.
Proof. apply (zero_sign_is_constant zero_f). reflexivity. Defined.

Lemma vector_or_matrix_witness : is_matrix u = negb (is_vector u).
Proof. apply (vector_or_matrix u); cbn; lia. Defined.

Lemma empty_shape_is_nothing_witness :
  is_scalar empty = false /\ is_vector empty = false
  /\ is_matrix empty = false.
Proof. apply (empty_shape_is_nothing empty). left. reflexivity. Defined.

Lemma mul_scalar_constant_commutes_witness :
  __mul__ x (Literal (Scalar 5)) = mul_expr five x
  /\ __rmul__ x (Literal (Scalar 5)) = mul_expr five x
  /\ __mul__ five (IsExpr x) = mul_expr five x.
Proof.
  apply (mul_scalar_constant_commutes x (Literal (Scalar 5)));
    reflexivity.
Defined.

Lemma mul_with_constant_operand_witness :
  (is_constant M = true
   /\ (__mul__ M (IsExpr A) = mul_expr M A
       \/ __mul__ M (IsExpr A) = (t <- transpose M ;; mul_expr t A)))
  \/ (is_constant M = false /\ is_constant A = true
      /\ is_scalar M || is_scalar A = true
      /\ __mul__ M (IsExpr A) = mul_expr A M)
  \/ (is_constant M = false /\ is_constant A = true
      /\ is_scalar M = false /\ is_scalar A = false
      /\ __mul__ M (IsExpr A) = rmul_expr M A).
Proof. apply (mul_with_constant_operand M A). reflexivity. Defined.

Lemma zero_times_anything_witness :
  __mul__ zero_f (IsExpr x) = mul_expr zero_f x
  \/ __mul__ zero_f (IsExpr x) = (t <- transpose zero_f ;; mul_expr t x).
Proof. apply (zero_times_anything zero_f x). reflexivity. Defined.

Lemma number_over_expression_raises_witness :
  (forall n, __rdiv__ x (Literal (Scalar 1)) <> Ok n)
  /\ (forall c, cast_to_const (Literal (Scalar 1)) = Ok c ->
      __rdiv__ x (Literal (Scalar 1))
      = Raise (DCPError "Can only divide by a scalar constant.")).
Proof.
  apply (number_over_expression_raises x (Literal (Scalar 1))).
  reflexivity.
Defined.

Lemma div_by_zero_sign_scalar_witness :
  __div__ x (IsExpr (Constant (Scalar 0)))
  = div_expr x (Constant (Scalar 0)).
Proof.
  apply (div_by_zero_sign_scalar x (Constant (Scalar 0))); reflexivity.
Defined.

End MoreWitnesses.
